(** * asedftk: the compatibility shim of [asedftk/__init__.py]

    The module checks that the Python-to-Julia bridge (the [julia] package)
    works, that a compatible DFTK is installed on the Julia side, and offers
    [install].  Everything the module calls outside itself (the [julia]
    package, the Julia runtime, the package manager [Pkg]) is taken as an
    interface, [Bridge]; the module's own functions are embedded over it in
    a state-and-exception monad whose state carries the world behind the
    bridge and the trace of the effects the module performed. *)

From Stdlib Require Import String Ascii List Bool Arith ZArith Lia.
Import ListNotations.
Local Open Scope string_scope.

(** ** Python values and string operations *)

(** [str.split(sep)] for a one-character separator: the pieces between the
    separators, the empty string included ("a..b" gives three pieces, the
    empty string gives one). *)
Fixpoint split (sep : ascii) (s : string) : list string :=
  match s with
  | EmptyString => [EmptyString]
  | String c r =>
      if Ascii.eqb c sep then EmptyString :: split sep r
      else match split sep r with
           | h :: t => String c h :: t
           | [] => [String c EmptyString]
           end
  end.

(** [sep.join(l)]. *)
Fixpoint join (sep : ascii) (l : list string) : string :=
  match l with
  | [] => EmptyString
  | [x] => x
  | x :: rest => x ++ String sep (join sep rest)
  end.

(** [==] on lists of strings. *)
Fixpoint list_eqb (a b : list string) : bool :=
  match a, b with
  | [], [] => true
  | x :: a', y :: b' => String.eqb x y && list_eqb a' b'
  | _, _ => false
  end.

(** [l[i]] with Python's negative indices; [None] stands for [IndexError]. *)
Definition getitem {A : Type} (l : list A) (i : Z) : option A :=
  if (0 <=? i)%Z then nth_error l (Z.to_nat i)
  else if (Z.of_nat (length l) + i <? 0)%Z then None
  else nth_error l (Z.to_nat (Z.of_nat (length l) + i)).

(** The values [check_julia] can return: a bool, or [None] when the function
    falls off its end. *)
Inductive pyval : Type :=
| PyNone
| PyBool (b : bool).

(** Truth value of a [pyval], as [not] and [if] read it. *)
Definition truthy (v : pyval) : bool :=
  match v with
  | PyNone => false
  | PyBool b => b
  end.

(** The positional and keyword arguments [install] forwards; the values are
    opaque to the module and stand here as text. *)
Definition pyargs : Type := (list string * list (string * string))%type.

(** ** Exceptions *)

Inductive exn : Type :=
| ImportError (msg : string)
| ModuleNotFoundError (msg : string)      (* a subclass of ImportError *)
| UnsupportedPythonError (msg : string)   (* julia.core.UnsupportedPythonError *)
| JuliaError (msg : string)               (* an exception thrown on the Julia side *)
| IndexError (msg : string)
| OtherError (msg : string).

(** [str(e)]. *)
Definition str (e : exn) : string :=
  match e with
  | ImportError m | ModuleNotFoundError m | UnsupportedPythonError m
  | JuliaError m | IndexError m | OtherError m => m
  end.

(** What [except ImportError] catches. *)
Definition is_ImportError (e : exn) : bool :=
  match e with
  | ImportError _ | ModuleNotFoundError _ => true
  | _ => false
  end.

(** What [except julia.core.UnsupportedPythonError] catches. *)
Definition is_UnsupportedPythonError (e : exn) : bool :=
  match e with
  | UnsupportedPythonError _ => true
  | _ => false
  end.

(** ** The Julia side *)

(** A Julia [VersionNumber] of a release: major, minor, patch. *)
Record VersionNumber : Type := v { major : nat; minor : nat; patch : nat }.

(** [a >= b] on version numbers: lexicographic. *)
Definition version_ge (a b : VersionNumber) : bool :=
  if (major b <? major a)%nat then true
  else if (major a <? major b)%nat then false
  else if (minor b <? minor a)%nat then true
  else if (minor a <? minor b)%nat then false
  else (patch b <=? patch a)%nat.

(** An entry of [Pkg.dependencies()]: the fields the module reads, the
    version as [string(package.version)] prints it. *)
Record PackageInfo : Type := { name : string; version : string }.

(** The argument of [Pkg.add]: a bare name, or a [PackageSpec] with a
    version. *)
Record PackageSpec : Type := { spec_name : string; spec_version : option string }.

(** ** Effects *)

(** What the module does to the outside, in order. *)
Inductive event : Type :=
| Warn (msg : string)            (* warnings.warn(msg) *)
| JuliaInstall (a : pyargs)      (* julia.install( *args, **kwargs) *)
| PkgAdd (spec : PackageSpec).   (* Pkg.add(spec) *)

(** The bridge, seen from the module, over a world [W] it acts on.
    An [option exn] is the exception an operation raises, [None] when it
    succeeds. *)
Class Bridge (W : Type) : Type := {
  (* [import julia] *)
  import_julia : W -> option exn;
  (* resolving [name] in [from julia import name], the package imported;
     this starts the Julia runtime *)
  load_module : string -> W -> option exn;
  (* Julia's [VERSION] *)
  VERSION : W -> VersionNumber;
  (* [Pkg.dependencies()], in iteration order, keyed by uuid *)
  dependencies : W -> list (string * PackageInfo);
  (* [julia.install( *args, **kwargs)] *)
  julia_install : pyargs -> W -> option exn * W;
  (* [Pkg.add(spec)] *)
  Pkg_add : PackageSpec -> W -> option exn * W;
  (* [from .calculator import DFTK]: the calculator module wraps the
     bridge; only whether its import raises matters here *)
  import_calculator : W -> option exn
}.

(** The state a run threads: the world and the trace of effects so far. *)
Record St (W : Type) : Type := mkSt { world : W; trace : list event }.
Arguments mkSt {W} _ _.
Arguments world {W} _.
Arguments trace {W} _.

(** The result of a computation: a value or a raised exception. *)
Inductive outcome (A : Type) : Type :=
| Return (a : A)
| Raise (e : exn).
Arguments Return {A} _.
Arguments Raise {A} _.

(** Computations: the state survives an exception (a warning emitted before
    a [raise] has been emitted). *)
Definition M (W A : Type) : Type := St W -> outcome A * St W.

Definition ret {W A : Type} (a : A) : M W A := fun s => (Return a, s).

Definition raise {W A : Type} (e : exn) : M W A := fun s => (Raise e, s).

Definition bind {W A B : Type} (c : M W A) (k : A -> M W B) : M W B :=
  fun s =>
    match c s with
    | (Return a, s') => k a s'
    | (Raise e, s') => (Raise e, s')
    end.

Declare Scope py_scope.
Delimit Scope py_scope with py.
Notation "x <- c ;; k" := (bind c (fun x => k))
  (at level 61, c at next level, right associativity) : py_scope.
Notation "c ;; k" := (bind c (fun _ => k))
  (at level 61, right associativity) : py_scope.
Local Open Scope py_scope.

(** [try: body  except <class> as e: handler e]. *)
Definition try_except {W A : Type} (body : M W A) (catches : exn -> bool)
    (handler : exn -> M W A) : M W A :=
  fun s =>
    match body s with
    | (Raise e, s') => if catches e then handler e s' else (Raise e, s')
    | r => r
    end.

(** An operation that may raise and leaves the world as it is. *)
Definition observe {W : Type} (f : W -> option exn) : M W unit :=
  fun s =>
    match f (world s) with
    | Some e => (Raise e, s)
    | None => (Return tt, s)
    end.

(** An operation that acts on the world, entered in the trace as [ev]. *)
Definition act {W : Type} (ev : event) (f : W -> option exn * W) : M W unit :=
  fun s =>
    let (r, w') := f (world s) in
    let s' := mkSt w' (trace s ++ [ev]) in
    match r with
    | Some e => (Raise e, s')
    | None => (Return tt, s')
    end.

(** [warnings.warn(msg)]. *)
Definition warn {W : Type} (msg : string) : M W unit :=
  fun s => (Return tt, mkSt (world s) (trace s ++ [Warn msg])).

(** The value or exception of a run, the final state left aside. *)
Definition result {W A : Type} (c : M W A) (s : St W) : outcome A := fst (c s).

(** ** The module *)

(** [COMPATIBLE_DFTK]: all compatible DFTK major.minor versions. *)
Definition COMPATIBLE_DFTK : list string := ["0.1"].

Definition dq : string := String "034"%char EmptyString.
Definition nl : string := String "010"%char EmptyString.

Definition v1_3_0 : VersionNumber := v 1 3 0.
Definition v1_4_0 : VersionNumber := v 1 4 0.

(** The expression on the compatibility set in [has_compatible_dftk]:
    [any(version.split(".")[:2] == v.split(".") for v in COMPATIBLE_DFTK)],
    over a set [compat]. *)
Definition any_match (compat : list string) (version : string) : bool :=
  existsb (fun c => list_eqb (firstn 2 (split "." version)) (split "." c)) compat.

(** The versions of the dependencies named DFTK, the comprehension
    [[package.version for (uuid, package) in deps if package.name == "DFTK"]]. *)
Definition dftk_versions (deps : list (string * PackageInfo)) : list string :=
  map (fun p => version (snd p))
      (filter (fun p => String.eqb (name (snd p)) "DFTK") deps).

Section Shim.
Context {W : Type} {bridge : Bridge W}.

(** [import julia]. *)
Definition import_julia_ : M W unit := observe import_julia.

(** [from julia import n1, n2, ...]: the package, then each name in turn. *)
Fixpoint from_julia_import_names (names : list string) : M W unit :=
  match names with
  | [] => ret tt
  | n :: rest => observe (load_module n) ;; from_julia_import_names rest
  end.

Definition from_julia_import (names : list string) : M W unit :=
  import_julia_ ;; from_julia_import_names names.

(** [Main.eval('VERSION >= v"a.b.c"')]. *)
Definition eval_VERSION_ge (v0 : VersionNumber) : M W bool :=
  fun s => (Return (version_ge (VERSION (world s)) v0), s).

(** [Main.eval] of the query for DFTK's version: indexing the empty array
    with [end] throws a BoundsError, which reaches Python as a JuliaError. *)
Definition eval_dftk_version : M W string :=
  fun s =>
    match getitem (dftk_versions (dependencies (world s))) (-1) with
    | Some ver => (Return ver, s)
    | None => (Raise (JuliaError "BoundsError"), s)
    end.

(** [l[i]] in the monad. *)
Definition index (l : list string) (i : Z) : M W string :=
  match getitem l i with
  | Some x => ret x
  | None => raise (IndexError "list index out of range")
  end.

Definition check_julia_hint : string :=
  nl ++ nl ++ "Issues between python and Julia. Try to resolve by installing "
     ++ "required Julia packages using" ++ nl
     ++ "    python3 -c " ++ dq ++ "import asedftk; asedftk.install()" ++ dq.

Definition too_old : string :=
  "Your Julia version is too old. At least 1.3.0 required".

(** [check_julia()]. *)
Definition check_julia : M W pyval :=
  import_julia_ ;;
  try_except
    (from_julia_import ["Main"] ;;
     julia_compatible <- eval_VERSION_ge v1_3_0 ;;
     (if negb julia_compatible then raise (ImportError too_old) else ret tt) ;;
     ret (PyBool julia_compatible))
    is_UnsupportedPythonError
    (fun e => warn (str e ++ check_julia_hint) ;; ret PyNone).

(** [dftk_version()]. *)
Definition dftk_version : M W string :=
  from_julia_import ["Main"; "Pkg"] ;;
  new_enough <- eval_VERSION_ge v1_4_0 ;;
  if new_enough then eval_dftk_version
  else (first <- index COMPATIBLE_DFTK 0 ;; ret (first ++ ".0")).

(** [has_compatible_dftk()].  The [return False] of the handler is the
    [false] of [imported]. *)
Definition has_compatible_dftk : M W bool :=
  imported <- try_except (from_julia_import ["DFTK"] ;; ret true)
                is_ImportError (fun _ => ret false) ;;
  if imported then
    (version <- dftk_version ;; ret (any_match COMPATIBLE_DFTK version))
  else ret false.

(** [install( *args, **kwargs)]. *)
Definition install (a : pyargs) : M W unit :=
  import_julia_ ;;
  act (JuliaInstall a) (julia_install a) ;;
  try_except
    (from_julia_import ["DFTK"; "JSON"])
    is_ImportError
    (fun _ =>
       from_julia_import ["Pkg"] ;;
       act (PkgAdd {| spec_name := "JSON"; spec_version := None |})
           (Pkg_add {| spec_name := "JSON"; spec_version := None |}) ;;
       latest <- index COMPATIBLE_DFTK (-1) ;;
       act (PkgAdd {| spec_name := "DFTK"; spec_version := Some latest |})
           (Pkg_add {| spec_name := "DFTK"; spec_version := Some latest |})).

Definition julia_not_found : string :=
  "Julia not found. Try to install Julia requirements "
  ++ "using 'asedftk.install()'".

Definition dftk_not_found : string :=
  "Could not find a compatible DFTK version. Maybe DFTK is not "
  ++ "installed on the Julia side or is too old. Before you can "
  ++ "use asedftk you have to update it using 'asedftk.install()'".

(** The statements the module runs when it is imported; the value is
    [__all__]. *)
Definition module_import : M W (list string) :=
  let __all__ := ["install"; "dftk_version"] in
  ok <- check_julia ;;
  if negb (truthy ok) then
    (warn julia_not_found ;; ret __all__)
  else
    (compatible <- has_compatible_dftk ;;
     if negb compatible then
       (warn dftk_not_found ;; ret __all__)
     else
       (observe import_calculator ;; ret ["install"; "dftk_version"; "DFTK"])).

End Shim.

(** ** A concrete bridge

    A small world behind the bridge, to run the module on: whether the
    Python package is installed, what starting the runtime raises, Julia's
    version, the Julia packages that can be imported and the dependency
    manifest.  [Pkg.add] needs the runtime; it makes the package importable
    and enters it in the manifest with the version asked for. *)
Module Env.

Record t : Type := mk {
  julia_package : bool;
  runtime_error : option exn;
  julia_VERSION : VersionNumber;
  loadable : list string;
  manifest : list (string * PackageInfo);
  calculator_error : option exn
}.

Definition import_julia (w : t) : option exn :=
  if julia_package w then None
  else Some (ModuleNotFoundError "No module named 'julia'").

Definition load_module (n : string) (w : t) : option exn :=
  match runtime_error w with
  | Some e => Some e
  | None =>
      if existsb (String.eqb n) ("Main" :: "Pkg" :: loadable w) then None
      else Some (ImportError (n ++ " not found"))
  end.

Definition julia_install (a : pyargs) (w : t) : option exn * t :=
  (None, mk true (runtime_error w) (julia_VERSION w) (loadable w) (manifest w)
            (calculator_error w)).

Definition Pkg_add (spec : PackageSpec) (w : t) : option exn * t :=
  let ver := match spec_version spec with Some x => x | None => "0.0.0" end in
  match runtime_error w with
  | Some e => (Some e, w)
  | None =>
      (None, mk (julia_package w) None (julia_VERSION w)
                (spec_name spec :: loadable w)
                (manifest w ++ [(spec_name spec,
                                 {| name := spec_name spec; version := ver |})])
                (calculator_error w))
  end.

#[global] Instance bridge : Bridge t :=
  Build_Bridge t import_julia load_module julia_VERSION manifest
               julia_install Pkg_add calculator_error.

(** A state with an empty trace. *)
Definition start (w : t) : St t := mkSt w [].

End Env.

Definition dftk (ver : string) : string * PackageInfo :=
  ("acf6eb54", {| name := "DFTK"; version := ver |}).

(** Worlds of the scenarios: the accepted one, Julia 1.5.0 with DFTK
    0.1.7; Julia 1.2.0, below the minimum; a runtime built for another
    Python; DFTK not installed; DFTK 0.2.0 installed; Julia 1.3.1, too old
    to list its dependencies; DFTK importable but in no manifest; DFTK
    installed and JSON missing. *)
Definition w_ok : Env.t :=
  Env.mk true None (v 1 5 0) ["DFTK"; "JSON"] [dftk "0.1.7"] None.

Definition w_old : Env.t :=
  Env.mk true None (v 1 2 0) ["DFTK"; "JSON"] [dftk "0.1.7"] None.

Definition w_misprovisioned : Env.t :=
  Env.mk true (Some (UnsupportedPythonError "libpython mismatch")) (v 1 5 0)
         ["DFTK"; "JSON"] [dftk "0.1.7"] None.

Definition w_no_dftk : Env.t := Env.mk true None (v 1 5 0) ["JSON"] [] None.

Definition w_dftk_0_2 : Env.t :=
  Env.mk true None (v 1 5 0) ["DFTK"; "JSON"] [dftk "0.2.0"] None.

Definition w_julia_1_3 : Env.t :=
  Env.mk true None (v 1 3 1) ["DFTK"; "JSON"] [dftk "0.3.0"] None.

Definition w_unlisted : Env.t :=
  Env.mk true None (v 1 5 0) ["DFTK"; "JSON"] [] None.

Definition w_dftk_only : Env.t :=
  Env.mk true None (v 1 5 0) ["DFTK"] [dftk "0.1.7"] None.

(** Further worlds: the [julia] package not installed; a Julia executable
    that cannot be found; a calculator module that fails to import; a
    manifest that lists DFTK twice. *)
Definition w_absent : Env.t :=
  Env.mk false None (v 1 5 0) ["DFTK"; "JSON"] [dftk "0.1.7"] None.

Definition w_runtime_fail : Env.t :=
  Env.mk true (Some (OtherError "Julia executable cannot be found")) (v 1 5 0)
         ["DFTK"; "JSON"] [dftk "0.1.7"] None.

Definition w_calculator_broken : Env.t :=
  Env.mk true None (v 1 5 0) ["DFTK"; "JSON"] [dftk "0.1.7"]
         (Some (ModuleNotFoundError "No module named 'ase'")).

Definition w_two_dftk : Env.t :=
  Env.mk true None (v 1 5 0) ["DFTK"; "JSON"]
         [dftk "0.1.3"; ("682c06a0", {| name := "JSON"; version := "0.21.0" |});
          dftk "0.1.7"; ("44cfe95a", {| name := "Pkg"; version := "nothing" |})]
         None.

(** The concrete bridge with the package registry out of reach: [Pkg.add]
    raises. *)
Definition offline : Bridge Env.t :=
  Build_Bridge Env.t Env.import_julia Env.load_module Env.julia_VERSION
               Env.manifest Env.julia_install
               (fun _ w => (Some (JuliaError "could not download registry"), w))
               Env.calculator_error.

(** ** Vocabulary of the properties *)

(** The major.minor prefix of a version string: its first two
    dot-separated components, joined by a dot again. *)
Definition major_minor (version : string) : string :=
  join "." (firstn 2 (split "." version)).

(** The specs [Pkg.add] was called with, in order. *)
Fixpoint additions (t : list event) : list PackageSpec :=
  match t with
  | [] => []
  | PkgAdd spec :: r => spec :: additions r
  | _ :: r => additions r
  end.

(** The warnings emitted, in order. *)
Fixpoint warnings (t : list event) : list string :=
  match t with
  | [] => []
  | Warn m :: r => m :: warnings r
  | _ :: r => warnings r
  end.

(** [c] occurs in [s]. *)
Fixpoint occurs (c : ascii) (s : string) : bool :=
  match s with
  | EmptyString => false
  | String d r => Ascii.eqb d c || occurs c r
  end.

(** The last character of a string. *)
Fixpoint last_char (s : string) : option ascii :=
  match s with
  | EmptyString => None
  | String c r =>
      match last_char r with
      | None => Some c
      | Some d => Some d
      end
  end.

(** The specs [install] passes to [Pkg.add]. *)
Definition json_spec : PackageSpec :=
  {| spec_name := "JSON"; spec_version := None |}.

Definition dftk_spec (ver : string) : PackageSpec :=
  {| spec_name := "DFTK"; spec_version := Some ver |}.

(** The outcome of an operation that returns nothing. *)
Definition raised (r : option exn) : outcome unit :=
  match r with
  | Some e => Raise e
  | None => Return tt
  end.

(** A bridge that provisions: a successful installer keeps what could be
    imported importable, and a successful [Pkg.add] makes its package
    importable and keeps the others. *)
Class Provisioning (W : Type) {bridge : Bridge W} : Prop := {
  installer_keeps : forall a w w' n,
    julia_install a w = (None, w') ->
    load_module n w = None -> load_module n w' = None;
  add_provides : forall spec w w',
    Pkg_add spec w = (None, w') -> load_module (spec_name spec) w' = None;
  add_keeps : forall spec w w' n,
    Pkg_add spec w = (None, w') ->
    load_module n w = None -> load_module n w' = None
}.

Section Vocabulary.
Context {W : Type} {bridge : Bridge W}.

(** The bridge loads and is new enough for the module. *)
Definition bridge_ok (w : W) : Prop :=
  import_julia w = None /\ load_module "Main" w = None /\
  version_ge (VERSION w) v1_3_0 = true.

(** Every name of [names] can be imported from [julia]. *)
Definition importable (names : list string) (w : W) : Prop :=
  import_julia w = None /\ Forall (fun n => load_module n w = None) names.

(** The two ways the module finds no compatible DFTK: the import raises an
    ImportError, or the version detected has no major.minor in the set. *)
Definition dftk_unusable (s : St W) : Prop :=
  (exists e, load_module "DFTK" (world s) = Some e /\ is_ImportError e = true) \/
  (load_module "DFTK" (world s) = None /\
   exists ver, result dftk_version s = Return ver /\
               ~ In (major_minor ver) COMPATIBLE_DFTK).

End Vocabulary.

(** * Strings: [split] and [join] *)

Lemma split_not_nil (sep : ascii) (s : string) : split sep s <> [].
Proof.
  destruct s as [|c r]; simpl; [discriminate|].
  destruct (Ascii.eqb c sep); [discriminate|].
  destruct (split sep r); discriminate.
Qed.

Lemma join_cons (sep : ascii) (x : string) (l : list string) :
  l <> [] -> join sep (x :: l) = x ++ String sep (join sep l).
Proof. destruct l; [congruence | reflexivity]. Qed.

Lemma join_split (sep : ascii) (s : string) : join sep (split sep s) = s.
Proof.
  induction s as [|c r IH]; [reflexivity|].
  simpl. destruct (Ascii.eqb_spec c sep) as [->|Hne].
  - rewrite join_cons by apply split_not_nil. simpl. now rewrite IH.
  - pose proof (split_not_nil sep r) as Hnil.
    destruct (split sep r) as [|h t]; [congruence|].
    destruct t as [|h' t'].
    + simpl in *. now rewrite IH.
    + change (join sep (String c h :: h' :: t'))
        with (String c (h ++ String sep (join sep (h' :: t')))).
      f_equal. exact IH.
Qed.

Lemma split_pieces (sep : ascii) (s : string) :
  Forall (fun x => occurs sep x = false) (split sep s).
Proof.
  induction s as [|c r IH]; simpl.
  - constructor; [reflexivity | constructor].
  - destruct (Ascii.eqb_spec c sep) as [->|Hne].
    + constructor; [reflexivity | exact IH].
    + destruct (split sep r) as [|h t].
      * constructor; [|constructor]. simpl.
        apply Ascii.eqb_neq in Hne. now rewrite Hne.
      * inversion IH as [|? ? Hh Ht]; subst.
        constructor; [|exact Ht]. simpl.
        apply Ascii.eqb_neq in Hne. now rewrite Hne.
Qed.

Lemma split_piece (sep : ascii) (x : string) :
  occurs sep x = false -> split sep x = [x].
Proof.
  induction x as [|c r IH]; simpl; [reflexivity|].
  intros H. apply orb_false_iff in H as [Hc Hr].
  rewrite Hc, (IH Hr). reflexivity.
Qed.

Lemma split_append (sep : ascii) (x rest : string) :
  occurs sep x = false ->
  split sep (x ++ String sep rest) = x :: split sep rest.
Proof.
  induction x as [|c r IH]; simpl; intros H.
  - now rewrite Ascii.eqb_refl.
  - apply orb_false_iff in H as [Hc Hr].
    rewrite Hc, (IH Hr). reflexivity.
Qed.

Lemma split_join (sep : ascii) (l : list string) :
  l <> [] -> Forall (fun x => occurs sep x = false) l ->
  split sep (join sep l) = l.
Proof.
  induction l as [|x l IH]; [congruence|].
  intros _ Hall. inversion Hall as [|? ? Hx Hl]; subst.
  destruct l as [|y l'].
  - simpl. now apply split_piece.
  - rewrite join_cons by discriminate.
    rewrite split_append by exact Hx.
    f_equal. apply IH; [discriminate | exact Hl].
Qed.

Lemma list_eqb_eq (a b : list string) : list_eqb a b = true <-> a = b.
Proof.
  revert b. induction a as [|x a IH]; intros [|y b]; simpl;
    try (split; [discriminate | congruence]); [tauto|].
  rewrite andb_true_iff, String.eqb_eq, IH.
  split; [intros [-> ->]; reflexivity | intros H; inversion H; auto].
Qed.

Lemma firstn_pieces (sep : ascii) (n : nat) (s : string) :
  firstn (S n) (split sep s) <> [] /\
  Forall (fun x => occurs sep x = false) (firstn (S n) (split sep s)).
Proof.
  split.
  - pose proof (split_not_nil sep s). destruct (split sep s); [congruence | discriminate].
  - generalize (S n) (split sep s) (split_pieces sep s).
    intros k l Hall. revert k.
    induction Hall as [|x l Hx Hl IH]; intros [|k]; simpl; constructor; auto.
Qed.

(** The test of [has_compatible_dftk] holds exactly when the major.minor
    prefix of the version is an entry of the compatibility set. *)
Lemma any_match_spec (compat : list string) (version : string) :
  any_match compat version = true <-> In (major_minor version) compat.
Proof.
  unfold any_match, major_minor. rewrite existsb_exists. split.
  - intros [c [Hin Heq]]. apply list_eqb_eq in Heq.
    rewrite Heq, join_split. exact Hin.
  - intros Hin. eexists; split; [exact Hin|].
    apply list_eqb_eq. symmetry.
    destruct (firstn_pieces "." 1 version) as [Hne Hall].
    now apply split_join.
Qed.

Lemma last_char_app (a b : string) :
  b <> EmptyString -> last_char (a ++ b) = last_char b.
Proof.
  intros Hb. induction a as [|c a IH]; [reflexivity|].
  simpl. rewrite IH.
  destruct b as [|d b]; [congruence|].
  simpl. destruct (last_char b); reflexivity.
Qed.

(** * Runs of the module *)

Lemma additions_app (t u : list event) :
  additions (t ++ u) = (additions t ++ additions u)%list.
Proof.
  induction t as [|[m|a|spec] t IH]; simpl; rewrite ?IH; reflexivity.
Qed.

Lemma warnings_app (t u : list event) :
  warnings (t ++ u) = (warnings t ++ warnings u)%list.
Proof.
  induction t as [|[m|a|spec] t IH]; simpl; rewrite ?IH; reflexivity.
Qed.

(** Unfolds a run down to the bridge's operations. *)
Ltac unfold_shim :=
  cbv [module_import check_julia has_compatible_dftk dftk_version install
       from_julia_import from_julia_import_names import_julia_
       eval_VERSION_ge eval_dftk_version index result
       bind ret raise try_except observe act warn].

(** Rewrites with the hypotheses on the bridge, reducing after each. *)
Ltac bridge_steps :=
  repeat (cbn [world trace fst snd];
          match goal with
          | H : ?l = _ |- context [?l] => rewrite H; cbv beta iota zeta
          end).

Ltac run_shim := unfold_shim; bridge_steps; cbn [fst snd world trace].

Section Runs.
Context {W : Type} {bridge : Bridge W}.

Lemma from_julia_import_names_state (names : list string) (s : St W) :
  snd (from_julia_import_names names s) = s.
Proof.
  induction names as [|n names IH]; [reflexivity|].
  simpl. unfold bind, observe.
  destruct (load_module n (world s)); [reflexivity | exact IH].
Qed.

Lemma from_julia_import_state (names : list string) (s : St W) :
  snd (from_julia_import names s) = s.
Proof.
  unfold from_julia_import, import_julia_, bind, observe.
  destruct (import_julia (world s)); [reflexivity|].
  apply from_julia_import_names_state.
Qed.

Lemma from_julia_import_ok (names : list string) (s : St W) :
  importable names (world s) -> from_julia_import names s = (Return tt, s).
Proof.
  intros [Hj Hall]. unfold from_julia_import, import_julia_, bind, observe.
  rewrite Hj. induction Hall as [|n names Hn _ IH]; [reflexivity|].
  simpl. unfold bind, observe. rewrite Hn. exact IH.
Qed.

Lemma run_eq {A : Type} (c : M W A) (s : St W) (r : outcome A) :
  snd (c s) = s -> result c s = r -> c s = (r, s).
Proof.
  unfold result. destruct (c s) as [r' s']. simpl. congruence.
Qed.

Lemma dftk_version_state (s : St W) : snd (dftk_version s) = s.
Proof.
  unfold dftk_version, bind.
  pose proof (from_julia_import_state ["Main"; "Pkg"] s) as Hs.
  destruct (from_julia_import ["Main"; "Pkg"] s) as [[[]|e] s']; simpl in Hs; subst s';
    [|reflexivity].
  unfold eval_VERSION_ge, eval_dftk_version.
  destruct (version_ge (VERSION (world s)) v1_4_0).
  - destruct (getitem _ _); reflexivity.
  - reflexivity.
Qed.

Lemma check_julia_absent (s : St W) (e : exn) :
  import_julia (world s) = Some e -> check_julia s = (Raise e, s).
Proof. intros Hj. now run_shim. Qed.

Lemma check_julia_misprovisioned (s : St W) (msg : string) :
  import_julia (world s) = None ->
  load_module "Main" (world s) = Some (UnsupportedPythonError msg) ->
  check_julia s
  = (Return PyNone, mkSt (world s) (trace s ++ [Warn (msg ++ check_julia_hint)])).
Proof. intros Hj Hm. now run_shim. Qed.

Lemma check_julia_too_old (s : St W) :
  import_julia (world s) = None -> load_module "Main" (world s) = None ->
  version_ge (VERSION (world s)) v1_3_0 = false ->
  check_julia s = (Raise (ImportError too_old), s).
Proof. intros Hj Hm Hv. now run_shim. Qed.

Lemma check_julia_ok (s : St W) :
  bridge_ok (world s) -> check_julia s = (Return (PyBool true), s).
Proof. intros (Hj & Hm & Hv). now run_shim. Qed.

Lemma has_compatible_missing (s : St W) (e : exn) :
  result (from_julia_import ["DFTK"]) s = Raise e -> is_ImportError e = true ->
  has_compatible_dftk s = (Return false, s).
Proof.
  intros Hr He. apply run_eq in Hr; [|apply from_julia_import_state].
  unfold has_compatible_dftk, bind, try_except. rewrite Hr, He. reflexivity.
Qed.

Lemma has_compatible_detected (s : St W) (ver : string) :
  result (from_julia_import ["DFTK"]) s = Return tt ->
  result dftk_version s = Return ver ->
  has_compatible_dftk s = (Return (any_match COMPATIBLE_DFTK ver), s).
Proof.
  intros Hr Hv.
  apply run_eq in Hr; [|apply from_julia_import_state].
  apply run_eq in Hv; [|apply dftk_version_state].
  unfold has_compatible_dftk, bind, try_except. rewrite Hr.
  cbv beta iota zeta. unfold ret at 1. cbv beta iota zeta. rewrite Hv. reflexivity.
Qed.

Lemma from_julia_import_one (n : string) (s : St W) :
  import_julia (world s) = None ->
  from_julia_import [n] s
  = (match load_module n (world s) with Some e => Raise e | None => Return tt end, s).
Proof.
  intros Hj. unfold_shim. rewrite Hj. cbv beta iota zeta.
  destruct (load_module n (world s)); reflexivity.
Qed.

Lemma has_compatible_unimportable (s : St W) (e : exn) :
  import_julia (world s) = None -> load_module "DFTK" (world s) = Some e ->
  is_ImportError e = true -> has_compatible_dftk s = (Return false, s).
Proof.
  intros Hj Hd He. apply (has_compatible_missing s e); [|exact He].
  unfold result. now rewrite from_julia_import_one, Hd.
Qed.

Lemma has_compatible_importable (s : St W) (ver : string) :
  import_julia (world s) = None -> load_module "DFTK" (world s) = None ->
  result dftk_version s = Return ver ->
  has_compatible_dftk s = (Return (any_match COMPATIBLE_DFTK ver), s).
Proof.
  intros Hj Hd Hv. apply has_compatible_detected; [|exact Hv].
  unfold result. now rewrite from_julia_import_one, Hd.
Qed.

Lemma any_match_false (compat : list string) (ver : string) :
  ~ In (major_minor ver) compat -> any_match compat ver = false.
Proof.
  intros Hn. destruct (any_match compat ver) eqn:E; [|reflexivity].
  apply any_match_spec in E. contradiction.
Qed.

(** ** Importing the module *)

Lemma import_absent (s : St W) (e : exn) :
  import_julia (world s) = Some e -> module_import s = (Raise e, s).
Proof.
  intros Hj. unfold module_import, bind. now rewrite (check_julia_absent s e Hj).
Qed.

Lemma import_too_old (s : St W) :
  import_julia (world s) = None -> load_module "Main" (world s) = None ->
  version_ge (VERSION (world s)) v1_3_0 = false ->
  module_import s = (Raise (ImportError too_old), s).
Proof.
  intros Hj Hm Hv. unfold module_import, bind.
  now rewrite (check_julia_too_old s Hj Hm Hv).
Qed.

Lemma import_misprovisioned (s : St W) (msg : string) :
  import_julia (world s) = None ->
  load_module "Main" (world s) = Some (UnsupportedPythonError msg) ->
  module_import s
  = (Return ["install"; "dftk_version"],
     mkSt (world s)
          (trace s ++ [Warn (msg ++ check_julia_hint); Warn julia_not_found])).
Proof.
  intros Hj Hm. unfold module_import, bind.
  rewrite (check_julia_misprovisioned s msg Hj Hm).
  cbn [truthy negb]. unfold warn, ret. cbn [world trace].
  now rewrite <- app_assoc.
Qed.

Lemma import_rejected (s : St W) :
  bridge_ok (world s) -> has_compatible_dftk s = (Return false, s) ->
  module_import s
  = (Return ["install"; "dftk_version"],
     mkSt (world s) (trace s ++ [Warn dftk_not_found])).
Proof.
  intros Hok Hc. unfold module_import, bind.
  rewrite (check_julia_ok s Hok). cbn [truthy negb]. now rewrite Hc.
Qed.

Lemma import_accepted (s : St W) :
  bridge_ok (world s) -> has_compatible_dftk s = (Return true, s) ->
  import_calculator (world s) = None ->
  module_import s = (Return ["install"; "dftk_version"; "DFTK"], s).
Proof.
  intros Hok Hc Hi. unfold module_import, bind.
  rewrite (check_julia_ok s Hok). cbn [truthy negb]. rewrite Hc.
  cbn [negb]. unfold observe. now rewrite Hi.
Qed.

Lemma import_dftk_unusable (s : St W) :
  bridge_ok (world s) -> dftk_unusable s ->
  module_import s
  = (Return ["install"; "dftk_version"],
     mkSt (world s) (trace s ++ [Warn dftk_not_found])).
Proof.
  intros Hok Hu. apply import_rejected; [exact Hok|].
  destruct Hok as (Hj & _ & _).
  destruct Hu as [(e & Hd & He) | (Hd & ver & Hv & Hn)].
  - now apply (has_compatible_unimportable s e).
  - rewrite (has_compatible_importable s ver Hj Hd Hv).
    now rewrite (any_match_false _ _ Hn).
Qed.

End Runs.

(** * The bridge check and the import of the module *)

Section Claims_import.
Context {W : Type} {bridge : Bridge W}.

(** C3, as amended.  With the [julia] package importable, [check_julia]
    answers a mis-provisioned bridge (starting the runtime raises
    UnsupportedPythonError) with one diagnostic, the exception's text
    followed by the remediation hint, and the falsy value None; a bridge
    below version 1.3.0 makes it raise ImportError, with no diagnostic. *)
Theorem check_julia_diagnoses (s : St W) :
  import_julia (world s) = None ->
  (forall msg, load_module "Main" (world s) = Some (UnsupportedPythonError msg) ->
     exists r, check_julia s
               = (Return r, mkSt (world s) (trace s ++ [Warn (msg ++ check_julia_hint)]))
               /\ truthy r = false) /\
  (load_module "Main" (world s) = None ->
   version_ge (VERSION (world s)) v1_3_0 = false ->
   check_julia s = (Raise (ImportError too_old), s)).
Proof.
  intros Hj. split.
  - intros msg Hm. exists PyNone. split; [|reflexivity].
    now apply check_julia_misprovisioned.
  - intros Hm Hv. now apply check_julia_too_old.
Qed.

(** C2, as amended.  With the [julia] package importable, importing the
    module degrades to warnings and the adapter withheld, without raising,
    when the bridge is mis-provisioned and when the bridge is fine but DFTK
    cannot be imported or has an incompatible version; a bridge below
    version 1.3.0 makes the import raise ImportError. *)
Theorem import_degrades (s : St W) :
  import_julia (world s) = None ->
  (forall msg, load_module "Main" (world s) = Some (UnsupportedPythonError msg) ->
     exists all tr,
       module_import s = (Return all, mkSt (world s) (trace s ++ tr)) /\
       ~ In "DFTK" all /\ warnings tr <> []) /\
  (bridge_ok (world s) -> dftk_unusable s ->
     exists all tr,
       module_import s = (Return all, mkSt (world s) (trace s ++ tr)) /\
       ~ In "DFTK" all /\ warnings tr <> []) /\
  (load_module "Main" (world s) = None ->
   version_ge (VERSION (world s)) v1_3_0 = false ->
   module_import s = (Raise (ImportError too_old), s)).
Proof.
  intros Hj. split; [|split].
  - intros msg Hm. eexists _, _. split; [exact (import_misprovisioned s msg Hj Hm)|].
    split; [|discriminate].
    simpl. intros [H|[H|[]]]; discriminate.
  - intros Hok Hu. eexists _, _. split; [exact (import_dftk_unusable s Hok Hu)|].
    split; [|discriminate].
    simpl. intros [H|[H|[]]]; discriminate.
  - intros Hm Hv. now apply import_too_old.
Qed.

(** C4, as amended.  When starting the bridge raises UnsupportedPythonError
    while the module is imported, DFTK is not in [__all__] and exactly two
    warnings are emitted: the diagnostic of [check_julia], then the
    `Julia not found' warning of the module. *)
Theorem import_misprovisioned_warns_twice (s : St W) (msg : string) :
  import_julia (world s) = None ->
  load_module "Main" (world s) = Some (UnsupportedPythonError msg) ->
  exists all tr,
    module_import s = (Return all, mkSt (world s) (trace s ++ tr)) /\
    ~ In "DFTK" all /\
    tr = [Warn (msg ++ check_julia_hint); Warn julia_not_found] /\
    length (warnings tr) = 2.
Proof.
  intros Hj Hm. eexists _, _. split; [exact (import_misprovisioned s msg Hj Hm)|].
  split; [|split; reflexivity].
  simpl. intros [H|[H|[]]]; discriminate.
Qed.

End Claims_import.

Lemma w_dftk_0_2_unusable : dftk_unusable (Env.start w_dftk_0_2).
Proof.
  right. split; [reflexivity|]. exists "0.2.0". split; [reflexivity|].
  simpl. intros [H|[]]. discriminate.
Qed.

Lemma w_no_dftk_unusable : dftk_unusable (Env.start w_no_dftk).
Proof. left. eexists. split; reflexivity. Qed.

Lemma check_julia_diagnoses_witness :
  check_julia (Env.start w_old) = (Raise (ImportError too_old), Env.start w_old) /\
  exists r,
    check_julia (Env.start w_misprovisioned)
    = (Return r, mkSt w_misprovisioned
                      ([] ++ [Warn ("libpython mismatch" ++ check_julia_hint)])) /\
    truthy r = false.
Proof.
  split.
  - destruct (check_julia_diagnoses (Env.start w_old)) as [_ Hold];
      [reflexivity | apply Hold; reflexivity].
  - destruct (check_julia_diagnoses (Env.start w_misprovisioned)) as [Hmis _];
      [reflexivity | apply Hmis; reflexivity].
Defined.

(** On Julia 1.2.0 [check_julia] raises instead of returning False, and
    emits nothing. *)
Lemma check_julia_raises_when_too_old :
  version_ge (Env.julia_VERSION w_old) v1_3_0 = false /\
  result check_julia (Env.start w_old) = Raise (ImportError too_old) /\
  warnings (trace (snd (check_julia (Env.start w_old)))) = [].
Proof. repeat split. Qed.

Lemma import_degrades_witness :
  module_import (Env.start w_old) = (Raise (ImportError too_old), Env.start w_old) /\
  exists all tr,
    module_import (Env.start w_no_dftk)
    = (Return all, mkSt w_no_dftk ([] ++ tr)) /\
    ~ In "DFTK" all /\ warnings tr <> [].
Proof.
  split.
  - destruct (import_degrades (Env.start w_old)) as (_ & _ & Hold);
      [reflexivity | apply Hold; reflexivity].
  - destruct (import_degrades (Env.start w_no_dftk)) as (_ & Hdftk & _);
      [reflexivity|].
    apply Hdftk; [repeat split | exact w_no_dftk_unusable].
Defined.

(** On Julia 1.2.0 importing the module raises, and emits no warning. *)
Lemma import_raises_when_too_old :
  version_ge (Env.julia_VERSION w_old) v1_3_0 = false /\
  result module_import (Env.start w_old) = Raise (ImportError too_old) /\
  warnings (trace (snd (module_import (Env.start w_old)))) = [].
Proof. repeat split. Qed.

Lemma import_misprovisioned_warns_twice_witness :
  exists all tr,
    module_import (Env.start w_misprovisioned)
    = (Return all, mkSt w_misprovisioned ([] ++ tr)) /\
    ~ In "DFTK" all /\
    tr = [Warn ("libpython mismatch" ++ check_julia_hint); Warn julia_not_found] /\
    length (warnings tr) = 2.
Proof.
  apply (import_misprovisioned_warns_twice (Env.start w_misprovisioned)
           "libpython mismatch"); reflexivity.
Defined.

(** With a mis-provisioned bridge the import emits two warnings, not one. *)
Lemma import_misprovisioned_two_warnings :
  Env.load_module "Main" w_misprovisioned
  = Some (UnsupportedPythonError "libpython mismatch") /\
  warnings (trace (snd (module_import (Env.start w_misprovisioned))))
  = ["libpython mismatch" ++ check_julia_hint; julia_not_found] /\
  length (warnings (trace (snd (module_import (Env.start w_misprovisioned))))) <> 1.
Proof. repeat split. discriminate. Qed.

(** * The detected version and the compatibility test *)

Lemma split_app (sep : ascii) (c p : string) :
  split sep (c ++ String sep p) = (split sep c ++ split sep p)%list.
Proof.
  induction c as [|ch r IH]; simpl.
  - now rewrite Ascii.eqb_refl.
  - destruct (Ascii.eqb ch sep); rewrite IH; [reflexivity|].
    pose proof (split_not_nil sep r) as Hnil.
    destruct (split sep r) as [|h t]; [congruence | reflexivity].
Qed.

(** A patch component appended to a major.minor string leaves its
    major.minor prefix as it was. *)
Lemma major_minor_patch (c p : string) :
  length (split "." c) = 2%nat -> major_minor (c ++ String "." p) = c.
Proof.
  intros Hlen. unfold major_minor. rewrite split_app.
  rewrite <- (join_split "." c) at 2.
  destruct (split "." c) as [|a [|b [|x l]]]; try discriminate.
  reflexivity.
Qed.

Lemma dftk_versions_none (deps : list (string * PackageInfo)) :
  (forall p, In p deps -> name (snd p) <> "DFTK") -> dftk_versions deps = [].
Proof.
  unfold dftk_versions. induction deps as [|p deps IH]; intros Hno; [reflexivity|].
  simpl. destruct (String.eqb_spec (name (snd p)) "DFTK") as [Heq|_].
  - exfalso. apply (Hno p); [now left | exact Heq].
  - apply IH. intros q Hq. apply Hno. now right.
Qed.

Section Claims_version.
Context {W : Type} {bridge : Bridge W}.

Lemma dftk_version_old (s : St W) :
  importable ["Main"; "Pkg"] (world s) ->
  version_ge (VERSION (world s)) v1_4_0 = false ->
  dftk_version s = (Return "0.1.0", s).
Proof.
  intros Hi Hv. unfold dftk_version, bind.
  rewrite (from_julia_import_ok _ s Hi). unfold eval_VERSION_ge.
  now rewrite Hv.
Qed.

Lemma dftk_version_new (s : St W) :
  importable ["Main"; "Pkg"] (world s) ->
  version_ge (VERSION (world s)) v1_4_0 = true ->
  dftk_version s = eval_dftk_version s.
Proof.
  intros Hi Hv. unfold dftk_version, bind.
  rewrite (from_julia_import_ok _ s Hi). unfold eval_VERSION_ge.
  now rewrite Hv.
Qed.

(** C1.  [has_compatible_dftk] returns False when importing DFTK through
    the bridge raises an ImportError; when the import succeeds and a version
    is detected, it returns True exactly when the major.minor prefix of that
    version (its first two dot-separated components) is an entry of
    [COMPATIBLE_DFTK]; a patch component after an entry does not change the
    prefix. *)
Theorem has_compatible_dftk_spec (s : St W) :
  (forall e, result (from_julia_import ["DFTK"]) s = Raise e ->
             is_ImportError e = true ->
             has_compatible_dftk s = (Return false, s)) /\
  (forall ver, result (from_julia_import ["DFTK"]) s = Return tt ->
               result dftk_version s = Return ver ->
               exists b, has_compatible_dftk s = (Return b, s) /\
                         (b = true <-> In (major_minor ver) COMPATIBLE_DFTK)) /\
  (forall c p, In c COMPATIBLE_DFTK -> major_minor (c ++ String "." p) = c).
Proof.
  split; [|split].
  - intros e Hr He. exact (has_compatible_missing s e Hr He).
  - intros ver Hr Hv. exists (any_match COMPATIBLE_DFTK ver). split.
    + exact (has_compatible_detected s ver Hr Hv).
    + apply any_match_spec.
  - intros c p [<-|[]]. now apply major_minor_patch.
Qed.

(** C7.  On a bridge whose Julia is older than 1.4.0 (and from which Main
    and Pkg can be imported) [dftk_version] returns the first entry of
    [COMPATIBLE_DFTK] with ".0" appended. *)
Theorem dftk_version_fallback (s : St W) :
  importable ["Main"; "Pkg"] (world s) ->
  version_ge (VERSION (world s)) v1_4_0 = false ->
  exists first, getitem COMPATIBLE_DFTK 0 = Some first /\
                dftk_version s = (Return (first ++ ".0"), s).
Proof.
  intros Hi Hv. exists "0.1". split; [reflexivity|].
  now rewrite (dftk_version_old s Hi Hv).
Qed.

(** C9.  Where DFTK, Main and Pkg can be imported and Julia is older than
    1.4.0, [has_compatible_dftk] returns True: the fallback version is the
    first entry of [COMPATIBLE_DFTK] with ".0" appended, whose major.minor
    prefix is that entry. *)
Theorem fallback_is_compatible (s : St W) :
  importable ["DFTK"; "Main"; "Pkg"] (world s) ->
  version_ge (VERSION (world s)) v1_4_0 = false ->
  has_compatible_dftk s = (Return true, s) /\
  exists first, getitem COMPATIBLE_DFTK 0 = Some first /\
                result dftk_version s = Return (first ++ ".0") /\
                major_minor (first ++ ".0") = first.
Proof.
  intros [Hj Hall] Hv.
  inversion Hall as [|? ? Hd Hmp]; subst.
  assert (Hi : importable ["Main"; "Pkg"] (world s)) by (split; assumption).
  pose proof (dftk_version_old s Hi Hv) as Hver.
  split.
  - rewrite (has_compatible_importable s "0.1.0" Hj Hd); [reflexivity|].
    unfold result. now rewrite Hver.
  - exists "0.1". split; [reflexivity|]. split; [|reflexivity].
    unfold result. now rewrite Hver.
Qed.

(** C10.  Where Julia is at least 1.4.0 and no dependency is named DFTK,
    [dftk_version] raises: with Main and Pkg importable the exception is
    the JuliaError of indexing an empty array with [end]; no version string
    is returned. *)
Theorem dftk_version_missing_raises (s : St W) :
  version_ge (VERSION (world s)) v1_4_0 = true ->
  (forall p, In p (dependencies (world s)) -> name (snd p) <> "DFTK") ->
  (exists e, dftk_version s = (Raise e, s)) /\
  (importable ["Main"; "Pkg"] (world s) ->
   dftk_version s = (Raise (JuliaError "BoundsError"), s)).
Proof.
  intros Hv Hno.
  assert (Hend : eval_dftk_version s = (Raise (JuliaError "BoundsError"), s)).
  { unfold eval_dftk_version. now rewrite (dftk_versions_none _ Hno). }
  split.
  - unfold dftk_version, bind.
    pose proof (from_julia_import_state ["Main"; "Pkg"] s) as Hs.
    destruct (from_julia_import ["Main"; "Pkg"] s) as [[[]|e] s'];
      simpl in Hs; subst s'.
    + unfold eval_VERSION_ge. rewrite Hv. eexists. exact Hend.
    + eexists. reflexivity.
  - intros Hi. now rewrite (dftk_version_new s Hi Hv).
Qed.

End Claims_version.

Lemma has_compatible_dftk_spec_witness :
  exists b, has_compatible_dftk (Env.start w_ok) = (Return b, Env.start w_ok) /\
            (b = true <-> In (major_minor "0.1.7") COMPATIBLE_DFTK).
Proof.
  destruct (has_compatible_dftk_spec (Env.start w_ok)) as (_ & Hdet & _).
  apply Hdet; reflexivity.
Defined.

Lemma dftk_version_fallback_witness :
  exists first, getitem COMPATIBLE_DFTK 0 = Some first /\
                dftk_version (Env.start w_julia_1_3)
                = (Return (first ++ ".0"), Env.start w_julia_1_3).
Proof.
  apply (dftk_version_fallback (Env.start w_julia_1_3)).
  - split; [reflexivity | repeat constructor].
  - reflexivity.
Defined.

Lemma fallback_is_compatible_witness :
  has_compatible_dftk (Env.start w_julia_1_3) = (Return true, Env.start w_julia_1_3) /\
  exists first, getitem COMPATIBLE_DFTK 0 = Some first /\
                result dftk_version (Env.start w_julia_1_3) = Return (first ++ ".0") /\
                major_minor (first ++ ".0") = first.
Proof.
  apply (fallback_is_compatible (Env.start w_julia_1_3)).
  - split; [reflexivity | repeat constructor].
  - reflexivity.
Defined.

Lemma dftk_version_missing_raises_witness :
  exists e, dftk_version (Env.start w_unlisted) = (Raise e, Env.start w_unlisted).
Proof.
  apply (dftk_version_missing_raises (Env.start w_unlisted)).
  - reflexivity.
  - intros p [].
Defined.

(** The spec's examples: with the set ["0.1"], 0.1.7 is compatible and
    0.2.0 is not. *)
Example compatible_0_1_7 : any_match COMPATIBLE_DFTK "0.1.7" = true.
Proof. reflexivity. Qed.

Example incompatible_0_2_0 : any_match COMPATIBLE_DFTK "0.2.0" = false.
Proof. reflexivity. Qed.

Example incompatible_0_10_0 : any_match COMPATIBLE_DFTK "0.10.0" = false.
Proof. reflexivity. Qed.

(** * The import of the module and the installed DFTK *)

Section Claims_dftk_check.
Context {W : Type} {bridge : Bridge W}.

(** C8, as amended.  On a bridge that passes [check_julia], importing the
    module leaves DFTK out of [__all__] and emits one warning, which differs
    from the `Julia not found' warning and from every diagnostic of
    [check_julia], when importing DFTK raises an ImportError, and when Julia
    is at least 1.4.0, DFTK and Pkg import and the version the manifest
    lists for DFTK has no major.minor in the compatibility set.  On Julia
    below 1.4.0 the installed version is not read: with DFTK and Pkg
    importable the check passes and the import warns nothing. *)
Theorem import_without_dftk (s : St W) :
  bridge_ok (world s) ->
  (forall e, load_module "DFTK" (world s) = Some e -> is_ImportError e = true ->
     module_import s
     = (Return ["install"; "dftk_version"],
        mkSt (world s) (trace s ++ [Warn dftk_not_found]))) /\
  (forall ver, importable ["DFTK"; "Pkg"] (world s) ->
     version_ge (VERSION (world s)) v1_4_0 = true ->
     getitem (dftk_versions (dependencies (world s))) (-1) = Some ver ->
     ~ In (major_minor ver) COMPATIBLE_DFTK ->
     module_import s
     = (Return ["install"; "dftk_version"],
        mkSt (world s) (trace s ++ [Warn dftk_not_found]))) /\
  (importable ["DFTK"; "Pkg"] (world s) ->
   version_ge (VERSION (world s)) v1_4_0 = false ->
   has_compatible_dftk s = (Return true, s) /\
   module_import s
   = (match import_calculator (world s) with
      | Some e => Raise e
      | None => Return ["install"; "dftk_version"; "DFTK"]
      end, s)) /\
  ~ In "DFTK" ["install"; "dftk_version"] /\
  dftk_not_found <> julia_not_found /\
  (forall msg, dftk_not_found <> msg ++ check_julia_hint).
Proof.
  intros Hok.
  assert (Hmain : forall (Hi : importable ["DFTK"; "Pkg"] (world s)),
             load_module "DFTK" (world s) = None /\
             importable ["Main"; "Pkg"] (world s)).
  { intros [Hj Hall].
    inversion Hall as [|? ? Hd Hrest]; subst.
    inversion Hrest as [|? ? Hp _]; subst.
    split; [exact Hd|]. split; [exact Hj|].
    repeat constructor; [apply Hok | exact Hp]. }
  split; [|split; [|split; [|split; [|split]]]].
  - intros e Hd He. apply import_dftk_unusable; [exact Hok|].
    left. exists e. now split.
  - intros ver Hi Hv Hlast Hno. destruct (Hmain Hi) as [Hd Himp].
    apply import_dftk_unusable; [exact Hok|].
    right. split; [exact Hd|]. exists ver. split; [|exact Hno].
    unfold result. rewrite (dftk_version_new s Himp Hv).
    unfold eval_dftk_version. now rewrite Hlast.
  - intros Hi Hv. destruct (Hmain Hi) as [Hd Himp].
    assert (Hh : has_compatible_dftk s = (Return true, s)).
    { rewrite (has_compatible_importable s "0.1.0" (proj1 Hok) Hd); [reflexivity|].
      unfold result. now rewrite (dftk_version_old s Himp Hv). }
    split; [exact Hh|].
    unfold module_import, bind. rewrite (check_julia_ok s Hok).
    cbn [truthy negb]. rewrite Hh. cbn [negb]. unfold observe.
    destruct (import_calculator (world s)); reflexivity.
  - simpl. intros [H|[H|[]]]; discriminate.
  - discriminate.
  - intros msg H. apply (f_equal last_char) in H.
    rewrite last_char_app in H by discriminate.
    vm_compute in H. discriminate.
Qed.

End Claims_dftk_check.

Lemma import_without_dftk_witness :
  module_import (Env.start w_no_dftk)
  = (Return ["install"; "dftk_version"],
     mkSt w_no_dftk ([] ++ [Warn dftk_not_found])) /\
  module_import (Env.start w_dftk_0_2)
  = (Return ["install"; "dftk_version"],
     mkSt w_dftk_0_2 ([] ++ [Warn dftk_not_found])).
Proof.
  split.
  - destruct (import_without_dftk (Env.start w_no_dftk)) as (Habsent & _);
      [repeat split|].
    apply (Habsent (ImportError "DFTK not found")); reflexivity.
  - destruct (import_without_dftk (Env.start w_dftk_0_2)) as (_ & Hlisted & _);
      [repeat split|].
    apply (Hlisted "0.2.0");
      [split; [reflexivity | repeat constructor] | reflexivity | reflexivity |].
    simpl. intros [H|[]]. discriminate.
Defined.

(** On Julia 1.3.1 the bridge passes [check_julia] and the manifest lists
    DFTK 0.3.0, which is not in the compatibility set; the import all the
    same exposes DFTK and warns nothing. *)
Lemma import_exposes_incompatible_dftk :
  check_julia (Env.start w_julia_1_3)
  = (Return (PyBool true), Env.start w_julia_1_3) /\
  getitem (dftk_versions (Env.manifest w_julia_1_3)) (-1) = Some "0.3.0" /\
  any_match COMPATIBLE_DFTK "0.3.0" = false /\
  module_import (Env.start w_julia_1_3)
  = (Return ["install"; "dftk_version"; "DFTK"], Env.start w_julia_1_3) /\
  warnings (trace (snd (module_import (Env.start w_julia_1_3)))) = [].
Proof. repeat split. Qed.

(** * Installing *)

Section Claims_install.
Context {W : Type} {bridge : Bridge W}.

Lemma install_absent (a : pyargs) (s : St W) (e : exn) :
  import_julia (world s) = Some e -> install a s = (Raise e, s).
Proof. intros Hj. now run_shim. Qed.

Lemma install_installer_fails (a : pyargs) (s : St W) (e : exn) (w1 : W) :
  import_julia (world s) = None -> julia_install a (world s) = (Some e, w1) ->
  install a s = (Raise e, mkSt w1 (trace s ++ [JuliaInstall a])).
Proof. intros Hj Hi. now run_shim. Qed.

Lemma install_satisfied (a : pyargs) (s : St W) (w1 : W) :
  import_julia (world s) = None -> julia_install a (world s) = (None, w1) ->
  import_julia w1 = None ->
  load_module "DFTK" w1 = None -> load_module "JSON" w1 = None ->
  install a s = (Return tt, mkSt w1 (trace s ++ [JuliaInstall a])).
Proof. intros Hj Hi Hj1 Hd Hjs. now run_shim. Qed.

Lemma install_adds (a : pyargs) (s : St W) (w1 w2 w3 : W) (e : exn) (r : option exn) :
  import_julia (world s) = None -> julia_install a (world s) = (None, w1) ->
  import_julia w1 = None ->
  load_module "DFTK" w1 = Some e \/
  (load_module "DFTK" w1 = None /\ load_module "JSON" w1 = Some e) ->
  is_ImportError e = true -> load_module "Pkg" w1 = None ->
  Pkg_add json_spec w1 = (None, w2) -> Pkg_add (dftk_spec "0.1") w2 = (r, w3) ->
  install a s
  = (raised r,
     mkSt w3 (trace s ++ [JuliaInstall a; PkgAdd json_spec; PkgAdd (dftk_spec "0.1")])).
Proof.
  intros Hj Hi Hj1 Hmiss He Hp Ha1 Ha2.
  unfold json_spec, dftk_spec in *.
  destruct Hmiss as [Hd | [Hd Hjs]]; run_shim; change (getitem COMPATIBLE_DFTK (-1)) with (Some "0.1");
    cbv beta iota zeta; bridge_steps; rewrite <- !app_assoc; destruct r; reflexivity.
Qed.

Lemma install_no_additions (a : pyargs) (s : St W) :
  load_module "DFTK" (snd (julia_install a (world s))) = None ->
  load_module "JSON" (snd (julia_install a (world s))) = None ->
  additions (trace (snd (install a s))) = additions (trace s).
Proof.
  intros Hd Hjs. unfold_shim.
  destruct (import_julia (world s)); [reflexivity|]. cbv beta iota zeta.
  destruct (julia_install a (world s)) as [r w1]. cbn [snd] in Hd, Hjs.
  assert (Hadd : additions (trace s ++ [JuliaInstall a]) = additions (trace s)).
  { rewrite additions_app. simpl. apply app_nil_r. }
  destruct r; [exact Hadd|]. cbn [world trace].
  destruct (import_julia w1) as [e|] eqn:Hj1; cbv beta iota zeta.
  - destruct (is_ImportError e); [|exact Hadd]. cbn [world]. rewrite Hj1. exact Hadd.
  - cbn [world]. rewrite Hd. cbv beta iota zeta. cbn [world]. rewrite Hjs. exact Hadd.
Qed.

Lemma install_provides `{!Provisioning W} (a : pyargs) (s s1 : St W) :
  install a s = (Return tt, s1) ->
  load_module "DFTK" (world s1) = None /\ load_module "JSON" (world s1) = None.
Proof.
  unfold_shim.
  destruct (import_julia (world s)); [discriminate|]. cbv beta iota zeta.
  destruct (julia_install a (world s)) as [r w1].
  destruct r; [discriminate|]. cbn [world trace].
  destruct (import_julia w1) as [e|] eqn:Hj1; cbv beta iota zeta.
  { destruct (is_ImportError e); [|discriminate]. cbn [world]. rewrite Hj1. discriminate. }
  cbn [world].
  destruct (load_module "DFTK" w1) as [e|] eqn:Hd; cbv beta iota zeta.
  - destruct (is_ImportError e); [|discriminate]. cbn [world]. rewrite Hj1.
    cbv beta iota zeta. cbn [world].
    destruct (load_module "Pkg" w1); [discriminate|]. cbv beta iota zeta. cbn [world].
    destruct (Pkg_add _ w1) as [r2 w2] eqn:Ha1. destruct r2; [discriminate|].
    change (getitem COMPATIBLE_DFTK (-1)) with (Some "0.1"). cbv beta iota zeta.
    cbn [world trace].
    destruct (Pkg_add _ w2) as [r3 w3] eqn:Ha2. destruct r3; [discriminate|].
    intros H. inversion H; subst s1. cbn [world]. split.
    + exact (add_provides _ _ _ Ha2).
    + apply (add_keeps _ _ _ _ Ha2). exact (add_provides _ _ _ Ha1).
  - cbn [world].
    destruct (load_module "JSON" w1) as [e|] eqn:Hjs; cbv beta iota zeta.
    + destruct (is_ImportError e); [|discriminate]. cbn [world]. rewrite Hj1.
      cbv beta iota zeta. cbn [world].
      destruct (load_module "Pkg" w1); [discriminate|]. cbv beta iota zeta. cbn [world].
      destruct (Pkg_add _ w1) as [r2 w2] eqn:Ha1. destruct r2; [discriminate|].
      change (getitem COMPATIBLE_DFTK (-1)) with (Some "0.1"). cbv beta iota zeta.
      cbn [world trace].
      destruct (Pkg_add _ w2) as [r3 w3] eqn:Ha2. destruct r3; [discriminate|].
      intros H. inversion H; subst s1. cbn [world]. split.
      * exact (add_provides _ _ _ Ha2).
      * apply (add_keeps _ _ _ _ Ha2). exact (add_provides _ _ _ Ha1).
    + intros H. inversion H; subst s1. cbn [world]. split; assumption.
Qed.

(** C5.  [install] adds no package when DFTK and JSON can be imported once
    the bridge's installer has run; on a bridge that provisions, that holds
    when both could be imported before the call, and a call after a
    successful call adds nothing. *)
Theorem install_idempotent (a : pyargs) (s : St W) :
  (load_module "DFTK" (snd (julia_install a (world s))) = None ->
   load_module "JSON" (snd (julia_install a (world s))) = None ->
   additions (trace (snd (install a s))) = additions (trace s)) /\
  (Provisioning W ->
   (load_module "DFTK" (world s) = None ->
    load_module "JSON" (world s) = None ->
    additions (trace (snd (install a s))) = additions (trace s)) /\
   (forall a' s1, install a s = (Return tt, s1) ->
      additions (trace (snd (install a' s1))) = additions (trace s1))).
Proof.
  split; [apply install_no_additions|].
  intros Hprov.
  assert (Hkept : forall (b : pyargs) (s0 : St W),
             load_module "DFTK" (world s0) = None ->
             load_module "JSON" (world s0) = None ->
             additions (trace (snd (install b s0))) = additions (trace s0)).
  { intros b s0 Hd Hjs.
    destruct (import_julia (world s0)) as [e|] eqn:Hj.
    - now rewrite (install_absent b s0 e Hj).
    - destruct (julia_install b (world s0)) as [[e|] w1] eqn:Hi.
      + rewrite (install_installer_fails b s0 e w1 Hj Hi). cbn [snd trace].
        rewrite additions_app. simpl. apply app_nil_r.
      + apply install_no_additions; rewrite Hi; cbn [snd].
        * exact (installer_keeps _ _ _ _ Hi Hd).
        * exact (installer_keeps _ _ _ _ Hi Hjs). }
  split; [apply Hkept|].
  intros a' s1 Hfirst.
  destruct (install_provides a s s1 Hfirst) as [Hd Hjs].
  now apply Hkept.
Qed.

(** C6, as amended.  With the [julia] package importable, [install] first
    calls the bridge's installer and stops if that raises; it then imports
    DFTK and JSON in one [try]: if both import it adds nothing; if the
    import of either raises an ImportError it adds both through [Pkg.add],
    JSON first and then DFTK pinned to [COMPATIBLE_DFTK[-1]], whether or not
    one of the two could already be imported. *)
Theorem install_adds_both_or_none (a : pyargs) (s : St W) :
  import_julia (world s) = None ->
  (forall e w1, julia_install a (world s) = (Some e, w1) ->
     install a s = (Raise e, mkSt w1 (trace s ++ [JuliaInstall a]))) /\
  (forall w1, julia_install a (world s) = (None, w1) ->
     import_julia w1 = None ->
     (load_module "DFTK" w1 = None -> load_module "JSON" w1 = None ->
      install a s = (Return tt, mkSt w1 (trace s ++ [JuliaInstall a]))) /\
     (forall e latest w2 r w3,
        load_module "DFTK" w1 = Some e \/
        (load_module "DFTK" w1 = None /\ load_module "JSON" w1 = Some e) ->
        is_ImportError e = true -> load_module "Pkg" w1 = None ->
        getitem COMPATIBLE_DFTK (-1) = Some latest ->
        Pkg_add json_spec w1 = (None, w2) ->
        Pkg_add (dftk_spec latest) w2 = (r, w3) ->
        install a s
        = (raised r,
           mkSt w3 (trace s ++ [JuliaInstall a; PkgAdd json_spec;
                                PkgAdd (dftk_spec latest)])))).
Proof.
  intros Hj. split.
  - intros e w1 Hi. exact (install_installer_fails a s e w1 Hj Hi).
  - intros w1 Hi Hj1. split.
    + intros Hd Hjs. exact (install_satisfied a s w1 Hj Hi Hj1 Hd Hjs).
    + intros e latest w2 r w3 Hmiss He Hp Hlast Ha1 Ha2.
      injection Hlast as <-.
      exact (install_adds a s w1 w2 w3 e r Hj Hi Hj1 Hmiss He Hp Ha1 Ha2).
Qed.

End Claims_install.

(** The concrete bridge provisions. *)
Lemma Env_provisioning : Provisioning Env.t.
Proof.
  split.
  - intros a w w' n Hi. injection Hi as <-. exact (fun H => H).
  - intros spec w w' Ha. simpl in Ha. unfold Env.Pkg_add in Ha.
    destruct (Env.runtime_error w) eqn:Hr; [discriminate|].
    injection Ha as <-. simpl. unfold Env.load_module. simpl.
    rewrite String.eqb_refl. now rewrite !orb_true_r.
  - intros spec w w' n Ha. simpl in Ha. unfold Env.Pkg_add in Ha.
    destruct (Env.runtime_error w) eqn:Hr; [discriminate|].
    injection Ha as <-. simpl. unfold Env.load_module. rewrite Hr. simpl.
    destruct (String.eqb n "Main"); [reflexivity|].
    destruct (String.eqb n "Pkg"); [reflexivity|]. simpl.
    destruct (existsb (String.eqb n) (Env.loadable w)); [|discriminate].
    now rewrite orb_true_r.
Qed.

Lemma install_idempotent_witness :
  additions (trace (snd (install ([], []) (Env.start w_ok)))) = [] /\
  additions (trace (snd (install ([], []) (snd (install ([], []) (Env.start w_no_dftk))))))
  = additions (trace (snd (install ([], []) (Env.start w_no_dftk)))).
Proof.
  split.
  - apply (proj1 (install_idempotent ([], []) (Env.start w_ok))); reflexivity.
  - destruct (install_idempotent ([], []) (Env.start w_no_dftk)) as [_ Hprov].
    apply (proj2 (Hprov Env_provisioning) ([], []) _). reflexivity.
Defined.

Lemma install_adds_both_or_none_witness :
  exists w3,
    install ([], []) (Env.start w_dftk_only)
    = (Return tt,
       mkSt w3 ([] ++ [JuliaInstall ([], []); PkgAdd json_spec;
                       PkgAdd (dftk_spec "0.1")])).
Proof.
  destruct (install_adds_both_or_none ([], []) (Env.start w_dftk_only))
    as [_ Hafter]; [reflexivity|].
  destruct (Hafter w_dftk_only) as [_ Hadds]; [reflexivity | reflexivity |].
  eexists.
  eapply (Hadds (ImportError "JSON not found") "0.1" _ None _);
    [right; split; reflexivity | reflexivity ..].
Defined.

(** DFTK can be imported and JSON cannot: [install] adds DFTK all the
    same. *)
Lemma install_readds_importable_dftk :
  Env.load_module "DFTK" w_dftk_only = None /\
  Env.load_module "JSON" w_dftk_only = Some (ImportError "JSON not found") /\
  additions (trace (snd (install ([], []) (Env.start w_dftk_only))))
  = [json_spec; dftk_spec "0.1"].
Proof. repeat split. Qed.

(** * Further properties of the module *)

Lemma getitem_last {A : Type} (l : list A) (x : A) :
  getitem (l ++ [x]) (-1) = Some x.
Proof.
  unfold getitem. rewrite length_app. simpl length.
  replace (0 <=? -1)%Z with false by reflexivity.
  destruct (Z.ltb_spec (Z.of_nat (length l + 1) + -1) 0) as [Hlt|_]; [lia|].
  replace (Z.to_nat (Z.of_nat (length l + 1) + -1)) with (length l) by lia.
  rewrite nth_error_app2 by lia. now rewrite Nat.sub_diag.
Qed.

Lemma dftk_versions_app (l1 l2 : list (string * PackageInfo)) :
  dftk_versions (l1 ++ l2) = (dftk_versions l1 ++ dftk_versions l2)%list.
Proof. unfold dftk_versions. now rewrite filter_app, map_app. Qed.

Lemma version_ge_thresholds (ver : VersionNumber) :
  version_ge ver v1_4_0 = true -> version_ge ver v1_3_0 = true.
Proof.
  destruct ver as [ma mi pa]. unfold version_ge, v1_4_0, v1_3_0. cbn [major minor patch].
  destruct (Nat.ltb_spec 1 ma); [reflexivity|].
  destruct (Nat.ltb_spec ma 1); [discriminate|].
  destruct (Nat.ltb_spec 4 mi), (Nat.ltb_spec 3 mi); try reflexivity; try lia.
  destruct (Nat.ltb_spec mi 4), (Nat.ltb_spec mi 3); try discriminate; try lia.
Qed.

Lemma any_match_components (compat : list string) (ver : string) :
  any_match compat ver = true ->
  exists c, In c compat /\ split "." c = firstn 2 (split "." ver).
Proof.
  unfold any_match. rewrite existsb_exists. intros [c [Hin Heq]].
  exists c. split; [exact Hin|]. symmetry. now apply list_eqb_eq.
Qed.

(** X17.  The compatibility test can only succeed through an entry of at
    most two dot-separated components, and no more components than the
    version has: an entry such as 0.1.0 matches no version. *)
Theorem any_match_needs_short_entry (compat : list string) (ver : string) :
  any_match compat ver = true ->
  exists c, In c compat /\ (length (split "." c) <= 2)%nat /\
            (length (split "." c) <= length (split "." ver))%nat.
Proof.
  intros H. destruct (any_match_components compat ver H) as [c [Hin Heq]].
  exists c. split; [exact Hin|]. rewrite Heq, length_firstn. split; lia.
Qed.

(** X18.  The compatibility test reads the first two components of the
    version only: what follows the second dot does not change its
    result. *)
Theorem any_match_ignores_rest (compat : list string) (a b rest : string) :
  occurs "." a = false -> occurs "." b = false ->
  any_match compat (a ++ String "." (b ++ String "." rest))
  = any_match compat (a ++ String "." b).
Proof.
  intros Ha Hb. unfold any_match.
  rewrite !(split_append "." a) by exact Ha.
  rewrite (split_append "." b) by exact Hb.
  rewrite (split_piece "." b Hb). reflexivity.
Qed.

Lemma additions_installer (t : list event) (a : pyargs) :
  additions (t ++ [JuliaInstall a]) = additions t.
Proof. rewrite additions_app. apply app_nil_r. Qed.

Lemma additions_add (t : list event) (p : PackageSpec) :
  additions (t ++ [PkgAdd p]) = (additions t ++ [p])%list.
Proof. now rewrite additions_app. Qed.

Section More.
Context {W : Type} {bridge : Bridge W}.

Lemma check_julia_cases (s : St W) :
  (exists e, check_julia s = (Raise e, s)) \/
  (bridge_ok (world s) /\ check_julia s = (Return (PyBool true), s)) \/
  (exists msg,
     import_julia (world s) = None /\
     load_module "Main" (world s) = Some (UnsupportedPythonError msg) /\
     check_julia s
     = (Return PyNone, mkSt (world s) (trace s ++ [Warn (msg ++ check_julia_hint)]))).
Proof.
  destruct (import_julia (world s)) as [e|] eqn:Hj.
  { left. exists e. now apply check_julia_absent. }
  destruct (load_module "Main" (world s)) as [e|] eqn:Hm.
  - destruct (is_UnsupportedPythonError e) eqn:He.
    + destruct e; try discriminate. right. right. exists msg.
      repeat split; try assumption. now apply check_julia_misprovisioned.
    + left. exists e. now run_shim.
  - destruct (version_ge (VERSION (world s)) v1_3_0) eqn:Hv.
    + right. left. split; [repeat split; assumption|].
      apply check_julia_ok. repeat split; assumption.
    + left. eexists. now apply check_julia_too_old.
Qed.

Lemma has_compatible_dftk_state (s : St W) : snd (has_compatible_dftk s) = s.
Proof.
  unfold has_compatible_dftk, bind, try_except.
  pose proof (from_julia_import_state ["DFTK"] s) as Hs.
  destruct (from_julia_import ["DFTK"] s) as [[[]|e] s']; simpl in Hs; subst s'.
  - unfold ret at 1. cbv beta iota zeta.
    pose proof (dftk_version_state s) as Hv.
    destruct (dftk_version s) as [[ver|e] s']; simpl in Hv; subst s'; reflexivity.
  - destruct (is_ImportError e); reflexivity.
Qed.

Lemma module_import_cases (s : St W) :
  (exists e, module_import s = (Raise e, s)) \/
  (bridge_ok (world s) /\ has_compatible_dftk s = (Return true, s) /\
   module_import s = (Return ["install"; "dftk_version"; "DFTK"], s)) \/
  (bridge_ok (world s) /\ has_compatible_dftk s = (Return false, s) /\
   module_import s
   = (Return ["install"; "dftk_version"],
      mkSt (world s) (trace s ++ [Warn dftk_not_found]))) \/
  (exists msg,
     load_module "Main" (world s) = Some (UnsupportedPythonError msg) /\
     module_import s
     = (Return ["install"; "dftk_version"],
        mkSt (world s)
             (trace s ++ [Warn (msg ++ check_julia_hint); Warn julia_not_found]))).
Proof.
  destruct (check_julia_cases s) as [[e He] | [[Hok Hc] | (msg & Hj & Hm & Hc)]].
  - left. exists e. unfold module_import, bind. now rewrite He.
  - pose proof (has_compatible_dftk_state s) as Hs.
    destruct (has_compatible_dftk s) as [[[|]|e] s'] eqn:Hh; simpl in Hs; subst s'.
    + destruct (import_calculator (world s)) as [e|] eqn:Hi.
      * left. exists e. unfold module_import, bind. rewrite Hc. cbn [truthy negb].
        rewrite Hh. cbn [negb]. unfold observe. now rewrite Hi.
      * right. left. repeat split; try apply Hok.
        now apply import_accepted.
    + right. right. left. repeat split; try apply Hok.
      now apply import_rejected.
    + left. exists e. unfold module_import, bind. rewrite Hc. cbn [truthy negb].
      now rewrite Hh.
  - right. right. right. exists msg. split; [exact Hm|].
    now apply import_misprovisioned.
Qed.

(** X1.  [check_julia] never returns False: when it returns, it returns
    True without any effect, on a bridge that loads and is at least 1.3.0,
    or None after exactly one warning, when starting the bridge raised
    UnsupportedPythonError. *)
Theorem check_julia_never_false (s s' : St W) (r : pyval) :
  check_julia s = (Return r, s') ->
  (r = PyBool true /\ s' = s /\ bridge_ok (world s)) \/
  (r = PyNone /\
   exists msg,
     load_module "Main" (world s) = Some (UnsupportedPythonError msg) /\
     s' = mkSt (world s) (trace s ++ [Warn (msg ++ check_julia_hint)])).
Proof.
  intros Hrun.
  destruct (check_julia_cases s) as [[e He] | [[Hok Hc] | (msg & Hj & Hm & Hc)]];
    rewrite Hrun in *.
  - discriminate.
  - injection Hc as -> ->. left. repeat split; apply Hok.
  - injection Hc as -> ->. right. split; [reflexivity|]. now exists msg.
Qed.

(** X2.  When [import julia] raises, or starting the runtime raises
    anything but UnsupportedPythonError, [check_julia] and the import of
    the module raise that exception and warn nothing. *)
Theorem bridge_failure_propagates (s : St W) (e : exn) :
  (import_julia (world s) = Some e ->
   check_julia s = (Raise e, s) /\ module_import s = (Raise e, s)) /\
  (import_julia (world s) = None -> load_module "Main" (world s) = Some e ->
   is_UnsupportedPythonError e = false ->
   check_julia s = (Raise e, s) /\ module_import s = (Raise e, s)).
Proof.
  split.
  - intros Hj. split; [now apply check_julia_absent | now apply import_absent].
  - intros Hj Hm He.
    assert (Hc : check_julia s = (Raise e, s)) by now run_shim.
    split; [exact Hc|]. unfold module_import, bind. now rewrite Hc.
Qed.

(** X4.  On Julia 1.4.0 or later, with Main and Pkg importable,
    [dftk_version] returns the version of the last dependency named DFTK
    in the manifest's iteration order, whatever stands before and after
    it. *)
Theorem dftk_version_reads_manifest (s : St W)
    (before after : list (string * PackageInfo)) (uuid : string) (p : PackageInfo) :
  importable ["Main"; "Pkg"] (world s) ->
  version_ge (VERSION (world s)) v1_4_0 = true ->
  dependencies (world s) = (before ++ (uuid, p) :: after)%list ->
  name p = "DFTK" ->
  (forall q, In q after -> name (snd q) <> "DFTK") ->
  dftk_version s = (Return (version p), s).
Proof.
  intros Hi Hv Hdeps Hp Hafter.
  rewrite (dftk_version_new s Hi Hv). unfold eval_dftk_version.
  rewrite Hdeps, dftk_versions_app.
  change ((uuid, p) :: after) with ([(uuid, p)] ++ after)%list.
  rewrite dftk_versions_app, (dftk_versions_none after Hafter), app_nil_r.
  unfold dftk_versions at 2. simpl. rewrite Hp. simpl.
  now rewrite getitem_last.
Qed.

(** X6.  When [import julia] itself raises an ImportError,
    [has_compatible_dftk] returns False, while [dftk_version] raises that
    exception. *)
Theorem has_compatible_dftk_without_julia (s : St W) (e : exn) :
  import_julia (world s) = Some e -> is_ImportError e = true ->
  has_compatible_dftk s = (Return false, s) /\ dftk_version s = (Raise e, s).
Proof.
  intros Hj He. split.
  - apply (has_compatible_missing s e); [|exact He].
    unfold result. now run_shim.
  - now run_shim.
Qed.

(** X7.  [has_compatible_dftk] catches ImportError only: any other
    exception of the import of DFTK, and any exception of [dftk_version],
    is raised by it. *)
Theorem has_compatible_dftk_propagates (s : St W) (e : exn) :
  import_julia (world s) = None ->
  (load_module "DFTK" (world s) = Some e -> is_ImportError e = false ->
   has_compatible_dftk s = (Raise e, s)) /\
  (load_module "DFTK" (world s) = None -> result dftk_version s = Raise e ->
   has_compatible_dftk s = (Raise e, s)).
Proof.
  intros Hj. split.
  - intros Hd He. unfold has_compatible_dftk, bind, try_except.
    rewrite (from_julia_import_one "DFTK" s Hj), Hd, He. reflexivity.
  - intros Hd Hv. apply run_eq in Hv; [|apply dftk_version_state].
    unfold has_compatible_dftk, bind, try_except.
    rewrite (from_julia_import_one "DFTK" s Hj), Hd.
    unfold ret at 1. cbv beta iota zeta. now rewrite Hv.
Qed.

(** X8.  On a bridge that passes [check_julia] with Julia 1.4.0 or later,
    a DFTK that can be imported but is no dependency of the manifest makes
    the import of the module raise the JuliaError of [dftk_version]. *)
Theorem import_unlisted_dftk_raises (s : St W) :
  bridge_ok (world s) -> importable ["DFTK"; "Pkg"] (world s) ->
  version_ge (VERSION (world s)) v1_4_0 = true ->
  (forall p, In p (dependencies (world s)) -> name (snd p) <> "DFTK") ->
  module_import s = (Raise (JuliaError "BoundsError"), s).
Proof.
  intros Hok [Hj Hall] Hv Hno.
  inversion Hall as [|? ? Hd Hrest]; subst. inversion Hrest as [|? ? Hp _]; subst.
  assert (Hi : importable ["Main"; "Pkg"] (world s)).
  { split; [exact Hj|]. repeat constructor; [apply Hok | exact Hp]. }
  assert (Hver : dftk_version s = (Raise (JuliaError "BoundsError"), s)).
  { rewrite (dftk_version_new s Hi Hv). unfold eval_dftk_version.
    now rewrite (dftk_versions_none _ Hno). }
  assert (Hh : has_compatible_dftk s = (Raise (JuliaError "BoundsError"), s)).
  { unfold has_compatible_dftk, bind, try_except.
    rewrite (from_julia_import_one "DFTK" s Hj), Hd.
    unfold ret at 1. cbv beta iota zeta. now rewrite Hver. }
  unfold module_import, bind. rewrite (check_julia_ok s Hok). cbn [truthy negb].
  now rewrite Hh.
Qed.

(** X9.  When the import of the module returns, the world is unchanged,
    the only effects are warnings, at most two, [__all__] holds install and
    dftk_version, and it holds DFTK exactly when no warning was emitted. *)
Theorem import_exposes_adapter_iff_quiet (s s' : St W) (all : list string) :
  module_import s = (Return all, s') ->
  exists tr,
    s' = mkSt (world s) (trace s ++ tr) /\
    In "install" all /\ In "dftk_version" all /\
    (In "DFTK" all <-> tr = []) /\
    (forall ev, In ev tr -> exists m, ev = Warn m) /\
    (length tr <= 2)%nat.
Proof.
  intros Hrun.
  destruct (module_import_cases s)
    as [[e He] | [(_ & _ & Hm) | [(_ & _ & Hm) | (msg & _ & Hm)]]];
    rewrite Hrun in *; try discriminate; injection Hm as -> ->.
  - exists []. repeat split; simpl; auto.
    + destruct s. simpl. now rewrite app_nil_r.
    + intros ev [].
  - eexists. split; [reflexivity|]. repeat split; simpl; auto.
    + intros [H|[H|[]]]; discriminate.
    + discriminate.
    + intros ev [<-|[]]. now eexists.
  - eexists. split; [reflexivity|]. repeat split; simpl; auto.
    + intros [H|[H|[]]]; discriminate.
    + discriminate.
    + intros ev [<-|[<-|[]]]; now eexists.
Qed.

(** X10.  When the import of the module raises, nothing was emitted and
    the world is unchanged. *)
Theorem import_raise_is_silent (s s' : St W) (e : exn) :
  module_import s = (Raise e, s') -> s' = s.
Proof.
  intros Hrun.
  destruct (module_import_cases s)
    as [[e' He] | [(_ & _ & Hm) | [(_ & _ & Hm) | (msg & _ & Hm)]]];
    rewrite Hrun in *; try discriminate.
  now injection He as _ ->.
Qed.

(** X11.  On a bridge that passes [check_julia] with Julia below 1.4.0,
    the module exposes DFTK as soon as DFTK and Pkg can be imported (and the
    calculator imports), whatever the manifest lists. *)
Theorem import_on_old_julia_trusts_dftk (s : St W) :
  bridge_ok (world s) -> importable ["DFTK"; "Pkg"] (world s) ->
  version_ge (VERSION (world s)) v1_4_0 = false ->
  import_calculator (world s) = None ->
  module_import s = (Return ["install"; "dftk_version"; "DFTK"], s).
Proof.
  intros Hok [Hj Hall] Hv Hi.
  inversion Hall as [|? ? Hd Hrest]; subst. inversion Hrest as [|? ? Hp _]; subst.
  apply import_accepted; [exact Hok | | exact Hi].
  assert (Himp : importable ["Main"; "Pkg"] (world s)).
  { split; [exact Hj|]. repeat constructor; [apply Hok | exact Hp]. }
  rewrite (has_compatible_importable s "0.1.0" Hj Hd); [reflexivity|].
  unfold result. now rewrite (dftk_version_old s Himp Hv).
Qed.

(** X12.  On a bridge that passes [check_julia], with DFTK importable and
    a detected version whose major.minor is in [COMPATIBLE_DFTK], the import
    of the module warns nothing; it returns [__all__] with DFTK, or raises
    what the import of the calculator raises. *)
Theorem import_accepts (s : St W) (ver : string) :
  bridge_ok (world s) -> load_module "DFTK" (world s) = None ->
  result dftk_version s = Return ver ->
  In (major_minor ver) COMPATIBLE_DFTK ->
  module_import s
  = (match import_calculator (world s) with
     | Some e => Raise e
     | None => Return ["install"; "dftk_version"; "DFTK"]
     end, s).
Proof.
  intros Hok Hd Hv Hin.
  assert (Hh : has_compatible_dftk s = (Return true, s)).
  { rewrite (has_compatible_importable s ver (proj1 Hok) Hd Hv).
    now rewrite (proj2 (any_match_spec _ _) Hin). }
  unfold module_import, bind. rewrite (check_julia_ok s Hok). cbn [truthy negb].
  rewrite Hh. cbn [negb]. unfold observe.
  destruct (import_calculator (world s)); reflexivity.
Qed.

(** X3.  A bridge that loads and is new enough for [dftk_version] to read
    the manifest (at least 1.4.0) passes [check_julia]. *)
Theorem manifest_bridge_passes_check (s : St W) :
  import_julia (world s) = None -> load_module "Main" (world s) = None ->
  version_ge (VERSION (world s)) v1_4_0 = true ->
  check_julia s = (Return (PyBool true), s).
Proof.
  intros Hj Hm Hv. apply check_julia_ok. repeat split; try assumption.
  now apply version_ge_thresholds.
Qed.

(** X13.  Whatever the bridge does, [install] adds nothing, or JSON alone
    (when adding DFTK was not reached), or JSON and then DFTK 0.1: no other
    package, no other order, no package twice. *)
Theorem install_additions_shape (a : pyargs) (s : St W) :
  exists l,
    additions (trace (snd (install a s))) = (additions (trace s) ++ l)%list /\
    (l = [] \/ l = [json_spec] \/ l = [json_spec; dftk_spec "0.1"]).
Proof.
  unfold json_spec, dftk_spec. unfold_shim.
  change (getitem COMPATIBLE_DFTK (-1)) with (Some "0.1").
  repeat (cbv beta iota zeta; cbn [world trace fst snd];
          match goal with
          | |- context [import_julia ?w] => destruct (import_julia w)
          | |- context [julia_install ?b ?w] => destruct (julia_install b w) as [[?|] ?]
          | |- context [load_module ?n ?w] => destruct (load_module n w)
          | |- context [is_ImportError ?e] => destruct (is_ImportError e)
          | |- context [Pkg_add ?p ?w] => destruct (Pkg_add p w) as [[?|] ?]
          end);
    cbv beta iota zeta; cbn [world trace fst snd];
    rewrite ?additions_add, ?additions_installer, <- ?app_assoc;
    (eexists; split;
     [first [reflexivity | symmetry; apply app_nil_r] | auto]).
Qed.

(** X14.  When [Pkg.add] of JSON raises, [install] raises that exception
    and does not call [Pkg.add] for DFTK. *)
Theorem install_json_failure_skips_dftk (a : pyargs) (s : St W) (w1 w2 : W)
    (e e' : exn) :
  import_julia (world s) = None -> julia_install a (world s) = (None, w1) ->
  import_julia w1 = None ->
  load_module "DFTK" w1 = Some e \/
  (load_module "DFTK" w1 = None /\ load_module "JSON" w1 = Some e) ->
  is_ImportError e = true -> load_module "Pkg" w1 = None ->
  Pkg_add json_spec w1 = (Some e', w2) ->
  install a s
  = (Raise e', mkSt w2 (trace s ++ [JuliaInstall a; PkgAdd json_spec])).
Proof.
  intros Hj Hi Hj1 Hmiss He Hp Ha1. unfold json_spec in *.
  destruct Hmiss as [Hd | [Hd Hjs]]; run_shim; now rewrite <- app_assoc.
Qed.

(** X15.  [install] raises what [import julia] raises, before calling the
    installer; after the installer, an exception of the import of DFTK and
    JSON that is no ImportError is raised and no package is added. *)
Theorem install_propagates (a : pyargs) (s : St W) (e : exn) :
  (import_julia (world s) = Some e -> install a s = (Raise e, s)) /\
  (forall w1,
     import_julia (world s) = None -> julia_install a (world s) = (None, w1) ->
     import_julia w1 = Some e \/
     (import_julia w1 = None /\
      (load_module "DFTK" w1 = Some e \/
       (load_module "DFTK" w1 = None /\ load_module "JSON" w1 = Some e))) ->
     is_ImportError e = false ->
     install a s = (Raise e, mkSt w1 (trace s ++ [JuliaInstall a]))).
Proof.
  split.
  - intros Hj. now apply install_absent.
  - intros w1 Hj Hi Hfail He.
    destruct Hfail as [Hj1 | [Hj1 [Hd | [Hd Hjs]]]]; now run_shim.
Qed.

(** X16.  On a bridge that provisions, when [install] returns, DFTK and
    JSON can be imported and the installer was the first thing called. *)
Theorem install_makes_importable `{!Provisioning W} (a : pyargs) (s s1 : St W) :
  install a s = (Return tt, s1) ->
  load_module "DFTK" (world s1) = None /\ load_module "JSON" (world s1) = None /\
  exists tr, trace s1 = (trace s ++ JuliaInstall a :: tr)%list.
Proof.
  intros Hrun. destruct (install_provides a s s1 Hrun) as [Hd Hjs].
  split; [exact Hd|]. split; [exact Hjs|].
  revert Hrun. unfold_shim.
  change (getitem COMPATIBLE_DFTK (-1)) with (Some "0.1").
  repeat (cbv beta iota zeta; cbn [world trace fst snd];
          match goal with
          | |- context [import_julia ?w] => destruct (import_julia w)
          | |- context [julia_install ?b ?w] => destruct (julia_install b w) as [[?|] ?]
          | |- context [load_module ?n ?w] => destruct (load_module n w)
          | |- context [is_ImportError ?e] => destruct (is_ImportError e)
          | |- context [Pkg_add ?p ?w] => destruct (Pkg_add p w) as [[?|] ?]
          end);
    cbv beta iota zeta; cbn [world trace fst snd];
    intros Hrun; try discriminate; injection Hrun as <-; cbn [trace];
    rewrite <- ?app_assoc; eexists; reflexivity.
Qed.

End More.

(** ** The further properties on the concrete bridge *)

Lemma any_match_needs_short_entry_witness :
  exists c, In c COMPATIBLE_DFTK /\ (length (split "." c) <= 2)%nat /\
            (length (split "." c) <= length (split "." "0.1.7"))%nat.
Proof.
  apply (any_match_needs_short_entry COMPATIBLE_DFTK "0.1.7"). reflexivity.
Defined.

Lemma any_match_ignores_rest_witness :
  any_match COMPATIBLE_DFTK ("0" ++ String "." ("1" ++ String "." "7-rc1+build.5"))
  = any_match COMPATIBLE_DFTK ("0" ++ String "." "1").
Proof.
  apply (any_match_ignores_rest COMPATIBLE_DFTK "0" "1" "7-rc1+build.5");
    reflexivity.
Defined.

Lemma check_julia_never_false_witness :
  (PyBool true = PyBool true /\ Env.start w_ok = Env.start w_ok /\
   bridge_ok (world (Env.start w_ok))) \/
  (PyBool true = PyNone /\
   exists msg,
     load_module "Main" (world (Env.start w_ok)) = Some (UnsupportedPythonError msg) /\
     Env.start w_ok
     = mkSt (world (Env.start w_ok))
            (trace (Env.start w_ok) ++ [Warn (msg ++ check_julia_hint)])).
Proof.
  apply (check_julia_never_false (Env.start w_ok) (Env.start w_ok) (PyBool true)).
  reflexivity.
Defined.

Lemma bridge_failure_propagates_witness :
  module_import (Env.start w_absent)
  = (Raise (ModuleNotFoundError "No module named 'julia'"), Env.start w_absent) /\
  module_import (Env.start w_runtime_fail)
  = (Raise (OtherError "Julia executable cannot be found"), Env.start w_runtime_fail).
Proof.
  split.
  - apply (proj1 (bridge_failure_propagates (Env.start w_absent) _)). reflexivity.
  - apply (proj2 (bridge_failure_propagates (Env.start w_runtime_fail) _));
      reflexivity.
Defined.

Lemma manifest_bridge_passes_check_witness :
  check_julia (Env.start w_ok) = (Return (PyBool true), Env.start w_ok).
Proof.
  apply (manifest_bridge_passes_check (Env.start w_ok)); reflexivity.
Defined.

Lemma dftk_version_reads_manifest_witness :
  dftk_version (Env.start w_two_dftk) = (Return "0.1.7", Env.start w_two_dftk).
Proof.
  apply (dftk_version_reads_manifest (Env.start w_two_dftk)
           [dftk "0.1.3"; ("682c06a0", {| name := "JSON"; version := "0.21.0" |})]
           [("44cfe95a", {| name := "Pkg"; version := "nothing" |})]
           "acf6eb54" {| name := "DFTK"; version := "0.1.7" |}).
  - split; [reflexivity | repeat constructor].
  - reflexivity.
  - reflexivity.
  - reflexivity.
  - intros q [<-|[]]. discriminate.
Defined.

Lemma has_compatible_dftk_without_julia_witness :
  has_compatible_dftk (Env.start w_absent) = (Return false, Env.start w_absent) /\
  dftk_version (Env.start w_absent)
  = (Raise (ModuleNotFoundError "No module named 'julia'"), Env.start w_absent).
Proof.
  apply (has_compatible_dftk_without_julia (Env.start w_absent)); reflexivity.
Defined.

Lemma has_compatible_dftk_propagates_witness :
  has_compatible_dftk (Env.start w_misprovisioned)
  = (Raise (UnsupportedPythonError "libpython mismatch"), Env.start w_misprovisioned) /\
  has_compatible_dftk (Env.start w_unlisted)
  = (Raise (JuliaError "BoundsError"), Env.start w_unlisted).
Proof.
  split.
  - destruct (has_compatible_dftk_propagates (Env.start w_misprovisioned)
                (UnsupportedPythonError "libpython mismatch")) as [Himp _];
      [reflexivity | apply Himp; reflexivity].
  - destruct (has_compatible_dftk_propagates (Env.start w_unlisted)
                (JuliaError "BoundsError")) as [_ Hver];
      [reflexivity | apply Hver; reflexivity].
Defined.

Lemma import_unlisted_dftk_raises_witness :
  module_import (Env.start w_unlisted)
  = (Raise (JuliaError "BoundsError"), Env.start w_unlisted).
Proof.
  apply (import_unlisted_dftk_raises (Env.start w_unlisted)).
  - repeat split.
  - split; [reflexivity | repeat constructor].
  - reflexivity.
  - intros p [].
Defined.

Lemma import_exposes_adapter_iff_quiet_witness :
  exists tr,
    mkSt w_no_dftk [Warn dftk_not_found]
    = mkSt (world (Env.start w_no_dftk)) (trace (Env.start w_no_dftk) ++ tr) /\
    In "install" ["install"; "dftk_version"] /\
    In "dftk_version" ["install"; "dftk_version"] /\
    (In "DFTK" ["install"; "dftk_version"] <-> tr = []) /\
    (forall ev, In ev tr -> exists m, ev = Warn m) /\
    (length tr <= 2)%nat.
Proof.
  apply (import_exposes_adapter_iff_quiet (Env.start w_no_dftk)). reflexivity.
Defined.

Lemma import_raise_is_silent_witness : Env.start w_old = Env.start w_old.
Proof.
  apply (import_raise_is_silent (Env.start w_old) (Env.start w_old)
           (ImportError too_old)).
  reflexivity.
Defined.

Lemma import_on_old_julia_trusts_dftk_witness :
  dftk_versions (Env.manifest w_julia_1_3) = ["0.3.0"] /\
  module_import (Env.start w_julia_1_3)
  = (Return ["install"; "dftk_version"; "DFTK"], Env.start w_julia_1_3).
Proof.
  split; [reflexivity|].
  apply (import_on_old_julia_trusts_dftk (Env.start w_julia_1_3)).
  - repeat split.
  - split; [reflexivity | repeat constructor].
  - reflexivity.
  - reflexivity.
Defined.

Lemma import_accepts_witness :
  module_import (Env.start w_ok)
  = (Return ["install"; "dftk_version"; "DFTK"], Env.start w_ok) /\
  module_import (Env.start w_calculator_broken)
  = (Raise (ModuleNotFoundError "No module named 'ase'"),
     Env.start w_calculator_broken).
Proof.
  split.
  - refine (import_accepts (Env.start w_ok) "0.1.7" _ _ _ _);
      [repeat split | reflexivity | reflexivity | now left].
  - refine (import_accepts (Env.start w_calculator_broken) "0.1.7" _ _ _ _);
      [repeat split | reflexivity | reflexivity | now left].
Defined.

Lemma install_json_failure_skips_dftk_witness :
  @install Env.t offline ([], []) (Env.start w_no_dftk)
  = (Raise (JuliaError "could not download registry"),
     mkSt w_no_dftk ([] ++ [JuliaInstall ([], []); PkgAdd json_spec])).
Proof.
  apply (@install_json_failure_skips_dftk Env.t offline ([], [])
           (Env.start w_no_dftk) w_no_dftk w_no_dftk
           (ImportError "DFTK not found"));
    [reflexivity | reflexivity | reflexivity | now left | reflexivity ..].
Defined.

Lemma install_propagates_witness :
  install ([], []) (Env.start w_absent)
  = (Raise (ModuleNotFoundError "No module named 'julia'"), Env.start w_absent) /\
  install ([], []) (Env.start w_misprovisioned)
  = (Raise (UnsupportedPythonError "libpython mismatch"),
     mkSt w_misprovisioned ([] ++ [JuliaInstall ([], [])])).
Proof.
  split.
  - apply (proj1 (install_propagates ([], []) (Env.start w_absent) _)).
    reflexivity.
  - apply (proj2 (install_propagates ([], []) (Env.start w_misprovisioned) _)
             w_misprovisioned);
      [reflexivity | reflexivity | | reflexivity].
    right. split; [reflexivity | now left].
Defined.

Lemma install_makes_importable_witness :
  load_module "DFTK" (world (snd (install ([], []) (Env.start w_no_dftk)))) = None /\
  load_module "JSON" (world (snd (install ([], []) (Env.start w_no_dftk)))) = None /\
  exists tr,
    trace (snd (install ([], []) (Env.start w_no_dftk)))
    = (trace (Env.start w_no_dftk) ++ JuliaInstall ([], []) :: tr)%list.
Proof.
  apply (@install_makes_importable Env.t Env.bridge Env_provisioning ([], [])
           (Env.start w_no_dftk)).
  reflexivity.
Defined.
